(** * CDEC snow-course and snow-sensor export: a shallow embedding

    The repository holds two scripts, [pull_snowcourses.py] and
    [pull_cdec_met.py].  They ask the metloom point-data library for the
    CDEC stations inside a region, reshape the answers with pandas and write
    one CSV file per station.  This development embeds the pandas frames
    the scripts manipulate, the three formatters and the two station loops,
    and proves the properties the specification states about them.

    Numbers are IEEE binary64 values, as Python's [float] and numpy's
    [float64] are: the kernel's primitive floats.  Frames are columnar, as
    pandas frames are: an ordered list of labelled, typed columns.  The
    remote service, the shapefile reader and the text formatting of numbers
    are collaborators that are not part of the repository; they are
    variables of the sections that need them. *)

From Stdlib Require Import Floats ZArith.
From Stdlib Require Import Ascii DecimalString.
From stdpp Require Import gmap strings list fin_maps.

Set Warnings "-inexact-float".
Local Open Scope string_scope.
Local Open Scope list_scope.
Local Open Scope Z_scope.

(** ** Exceptions and results *)

(** The Python exceptions the modelled statements can raise.
    [DimensionError] is shapely's; [ServiceError] stands for whatever a
    collaborator raises. *)
Inductive exn : Type :=
| KeyError (label : string)
| IndexError
| ValueError
| TypeError
| AttributeError
| DimensionError
| ServiceError (what : string).

Inductive result (A : Type) : Type :=
| Ok (a : A)
| Raise (e : exn).
Arguments Ok {A} a.
Arguments Raise {A} e.

Definition rbind {A B} (r : result A) (k : A → result B) : result B :=
  match r with
  | Ok a => k a
  | Raise e => Raise e
  end.

Notation "'let?' x := r 'in' k" := (rbind r (λ x, k))
  (at level 10, x name, r at level 100, k at level 200,
   format "'[v' 'let?'  x  :=  r  'in' '/' k ']'").

(** ** Binary64 helpers *)

(** numpy's conversion of an [int64] to [float64]: round to nearest even. *)
Definition float_of_Z (z : Z) : float :=
  SF2Prim (binary_normalize prec emax z 0 false).

(** ** Timestamps *)

Inductive month : Type :=
| Jan | Feb | Mar | Apr | May | Jun | Jul | Aug | Sep | Oct | Nov | Dec.

(** A [datetime64] value read through its calendar fields (the time of day
    plays no part in the scripts).  NaT is not represented. *)
Record datetime : Type := mkdate { year : Z; mon : month; day : nat }.

(** [strftime("%b")] in the C locale. *)
Definition strftime_b (d : datetime) : string :=
  match mon d with
  | Jan => "Jan" | Feb => "Feb" | Mar => "Mar" | Apr => "Apr"
  | May => "May" | Jun => "Jun" | Jul => "Jul" | Aug => "Aug"
  | Sep => "Sep" | Oct => "Oct" | Nov => "Nov" | Dec => "Dec"
  end.

Definition nat_to_string (n : nat) : string :=
  NilEmpty.string_of_uint (Nat.to_uint n).

(** [strftime("%d")]: the day of the month, zero-padded to two digits. *)
Definition strftime_d (d : datetime) : string :=
  if (day d <? 10)%nat then "0" +:+ nat_to_string (day d)
  else nat_to_string (day d).

(** ** Geometry *)

(** A shapely point: two planar coordinates and an optional elevation. *)
Record point : Type := mkpoint { px : float; py : float; pz : option float }.

(** ** Columns and frames *)

(** A pandas column with its dtype. *)
Inductive column : Type :=
| ColFloat (v : list float)      (* float64 *)
| ColInt (v : list Z)            (* int64 *)
| ColStr (v : list string)       (* object, holding str *)
| ColDate (v : list datetime)    (* datetime64[ns] *)
| ColGeom (v : list point).      (* geometry *)

Definition col_length (c : column) : nat :=
  match c with
  | ColFloat v => length v
  | ColInt v => length v
  | ColStr v => length v
  | ColDate v => length v
  | ColGeom v => length v
  end.

(** A frame: the number of rows, the named index levels (none for the
    default [RangeIndex]) and the labelled columns in their order. *)
Record frame : Type := mkframe {
  nrows : nat;
  index : list (string * column);
  columns : list (string * column)
}.

Definition labels (cols : list (string * column)) : list string := cols.*1.

(** Frames as pandas builds them: labels pairwise distinct, index names
    included, and every column [nrows] long. *)
Definition wf_frame (df : frame) : Prop :=
  NoDup (labels (index df) ++ labels (columns df)) ∧
  Forall (λ kc, col_length kc.2 = nrows df) (index df ++ columns df).

#[global] Instance wf_frame_dec df : Decision (wf_frame df).
Proof. unfold wf_frame. apply _. Defined.

(** *** Reading and writing columns *)

Fixpoint lookup_col (k : string) (cols : list (string * column)) : option column :=
  match cols with
  | [] => None
  | (k', c) :: rest => if decide (k = k') then Some c else lookup_col k rest
  end.

(** [df[k]] for a single label: [KeyError] when no column carries it. *)
Definition getitem (k : string) (df : frame) : result column :=
  match lookup_col k (columns df) with
  | Some c => Ok c
  | None => Raise (KeyError k)
  end.

Fixpoint replace_col (k : string) (c : column) (cols : list (string * column))
  : list (string * column) :=
  match cols with
  | [] => []
  | (k', c') :: rest =>
      (k', if decide (k = k') then c else c') :: replace_col k c rest
  end.

(** [df[k] = c]: an existing label keeps its position and takes the new
    values; a new label is appended as the last column. *)
Definition setitem (k : string) (c : column) (df : frame) : frame :=
  mkframe (nrows df) (index df)
    (if decide (k ∈ labels (columns df))
     then replace_col k c (columns df)
     else columns df ++ [(k, c)]).

(** [df.rename(columns=mapping)]: labels absent from the mapping stay. *)
Definition rename_label (mapping : list (string * string)) (k : string)
  : string :=
  match list_find (λ ab, ab.1 = k) mapping with
  | Some (_, ab) => ab.2
  | None => k
  end.

Definition rename (mapping : list (string * string)) (df : frame) : frame :=
  mkframe (nrows df) (index df)
    (prod_map (rename_label mapping) id <$> columns df).

(** [df.drop(columns=[k])]: [KeyError] when the label is absent. *)
Definition drop (k : string) (df : frame) : result frame :=
  if decide (k ∈ labels (columns df))
  then Ok (mkframe (nrows df) (index df)
             (filter (λ kc, kc.1 ≠ k) (columns df)))
  else Raise (KeyError k).

(** [df[ks]] for a list of labels: the named columns in the order asked,
    [KeyError] on the first label that is absent. *)
Fixpoint select_cols (ks : list string) (cols : list (string * column))
  : result (list (string * column)) :=
  match ks with
  | [] => Ok []
  | k :: rest =>
      match lookup_col k cols with
      | Some c =>
          match select_cols rest cols with
          | Ok sel => Ok ((k, c) :: sel)
          | Raise e => Raise e
          end
      | None => Raise (KeyError k)
      end
  end.

Definition select (ks : list string) (df : frame) : result frame :=
  match select_cols ks (columns df) with
  | Ok sel => Ok (mkframe (nrows df) (index df) sel)
  | Raise e => Raise e
  end.

(** [df.reset_index()]: the index levels become the leading columns and the
    index is the default one again.  A level name that is already a column
    label is a [ValueError]; the default index is inserted as a column
    named [index], or [level_0] when [index] is taken. *)
Definition reset_index (df : frame) : result frame :=
  match index df with
  | [] =>
      let range := ColInt (Z.of_nat <$> seq 0 (nrows df)) in
      if decide ("index" ∈ labels (columns df)) then
        if decide ("level_0" ∈ labels (columns df)) then Raise ValueError
        else Ok (mkframe (nrows df) [] (("level_0", range) :: columns df))
      else Ok (mkframe (nrows df) [] (("index", range) :: columns df))
  | levels =>
      if decide (Exists (λ k, k ∈ labels (columns df)) (labels levels))
      then Raise ValueError
      else Ok (mkframe (nrows df) [] (levels ++ columns df))
  end.

(** *** Series operations *)

(** A single value taken out of a column. *)
Inductive scalar : Type :=
| SFloat (x : float)
| SInt (z : Z)
| SStr (s : string)
| SDate (d : datetime)
| SGeom (p : point).

(** [s.iloc[0]]: [IndexError] on a column without rows. *)
Definition iloc0 (c : column) : result scalar :=
  match c with
  | ColFloat (x :: _) => Ok (SFloat x)
  | ColInt (z :: _) => Ok (SInt z)
  | ColStr (s :: _) => Ok (SStr s)
  | ColDate (d :: _) => Ok (SDate d)
  | ColGeom (p :: _) => Ok (SGeom p)
  | _ => Raise IndexError
  end.

(** The [.dt] accessor exists on datetime columns only. *)
Definition dt (c : column) : result (list datetime) :=
  match c with
  | ColDate v => Ok v
  | _ => Raise AttributeError
  end.

(** [s * k] for a float [k]: integers are converted first, other dtypes do
    not multiply by a float. *)
Definition mul_scalar (c : column) (k : float) : result column :=
  match c with
  | ColFloat v => Ok (ColFloat ((λ x, x * k)%float <$> v))
  | ColInt v => Ok (ColFloat ((λ z, float_of_Z z * k)%float <$> v))
  | _ => Raise TypeError
  end.

(** [s > 0]: a NaN compares false. *)
Definition gt_zero (c : column) : result (list bool) :=
  match c with
  | ColFloat v => Ok ((λ x, 0 <? x)%float <$> v)
  | ColInt v => Ok ((λ z, 0 <? z) <$> v)
  | _ => Raise TypeError
  end.

(** [a & b] on two boolean series of one frame. *)
Definition mask_and (a b : list bool) : list bool := zip_with andb a b.

(** A series filtered by a boolean mask keeps the labels of the rows it
    selects: the list keeps every position and holds a value at the
    selected ones. *)
Definition masked : Type := list (option float).

(** [s[ind]], read as floats for the arithmetic that follows. *)
Definition boolean_getitem (c : column) (ind : list bool) : result masked :=
  let pick (x : float) (b : bool) := if b then Some x else None in
  match c with
  | ColFloat v => Ok (zip_with pick v ind)
  | ColInt v => Ok (zip_with pick (float_of_Z <$> v) ind)
  | _ => Raise TypeError
  end.

(** [k * s] *)
Definition scale (k : float) (s : masked) : masked :=
  fmap (M := option) (λ x, k * x)%float <$> s.

(** [a / b], aligned on the row labels: a label held by one operand only
    yields NaN. *)
Definition series_div (a b : masked) : masked :=
  zip_with (λ x y,
    match x, y with
    | Some x, Some y => Some (x / y)%float
    | None, None => None
    | _, _ => Some nan
    end) a b.

(** The column as [float64] values, which is what a store of floats turns
    an integer column into. *)
Definition as_float (c : column) : result (list float) :=
  match c with
  | ColFloat v => Ok v
  | ColInt v => Ok (float_of_Z <$> v)
  | _ => Raise TypeError
  end.

(** [s[ind] = rhs]: the rows selected by [ind] take the value [rhs] holds
    at their label (NaN when it holds none); the other rows keep theirs. *)
Definition masked_store (s : column) (ind : list bool) (rhs : masked)
  : result column :=
  let? v := as_float s in
  Ok (ColFloat (zip_with
        (λ (x : float) (br : bool * option float),
           if br.1 then default nan br.2 else x)
        v (zip ind rhs))).

(** A scalar broadcast over the rows of a frame. *)
Definition broadcast_int (df : frame) (z : Z) : column :=
  ColInt (replicate (nrows df) z).
Definition broadcast_str (df : frame) (s : string) : column :=
  ColStr (replicate (nrows df) s).

(** *** Geometry accessors *)

(** [df.geometry]: the geometry column of a GeoDataFrame. *)
Definition geometry (df : frame) : result (list point) :=
  let? c := getitem "geometry" df in
  match c with
  | ColGeom v => Ok v
  | _ => Raise AttributeError
  end.

Fixpoint collect {A} (l : list (result A)) : result (list A) :=
  match l with
  | [] => Ok []
  | r :: rest =>
      let? x := r in
      let? xs := collect rest in
      Ok (x :: xs)
  end.

Definition geometry_x (g : list point) : column := ColFloat (px <$> g).
Definition geometry_y (g : list point) : column := ColFloat (py <$> g).

(** Modelled from the spec: the elevation accessor of the geometry library,
    which is not part of the repository.  The specification has the
    metadata step fail on a station without a usable 3-D position, so
    reading the elevation of a point that has none raises, as shapely's
    [Point.z] does. *)
Definition point_z (p : point) : result float :=
  match pz p with
  | Some z => Ok z
  | None => Raise DimensionError
  end.

Definition geometry_z (g : list point) : result column :=
  let? zs := collect (point_z <$> g) in
  Ok (ColFloat zs).

(** ** The world: files written and lines printed *)

(** What [to_csv] leaves in a file: the table and the two options the
    scripts pass.  The text of the file is [render_csv] of this record;
    keeping the table lets a property speak of the numbers written. *)
Record csv_file : Type := mkcsv {
  csv_table : frame;
  csv_float_format : option string;
  csv_index : bool
}.

Record world : Type := mkworld {
  files : gmap string csv_file;
  stdout : list string
}.

(** Statements that may raise and may act on the world.  An exception
    leaves the world as it was when it was raised. *)
Definition M (A : Type) : Type := world → result A * world.

Definition ret {A} (a : A) : M A := λ w, (Ok a, w).

Definition bind {A B} (m : M A) (k : A → M B) : M B :=
  λ w, match m w with
       | (Ok a, w') => k a w'
       | (Raise e, w') => (Raise e, w')
       end.

(** A computation that does not touch the world. *)
Definition pure {A} (r : result A) : M A := λ w, (r, w).

Notation "'let*' x := m 'in' k" := (bind m (λ x, k))
  (at level 10, x name, m at level 100, k at level 200,
   format "'[v' 'let*'  x  :=  m  'in' '/' k ']'").
Notation "'let!' x := r 'in' k" := (bind (pure r) (λ x, k))
  (at level 10, x name, r at level 100, k at level 200,
   format "'[v' 'let!'  x  :=  r  'in' '/' k ']'").

Definition print (line : string) : M unit :=
  λ w, (Ok (), mkworld (files w) (stdout w ++ [line])).

(** [df.to_csv(path, float_format=ff, index=idx)]: the file is created or
    overwritten. *)
Definition to_csv (df : frame) (path : string) (ff : option string)
    (idx : bool) : M unit :=
  λ w, (Ok (), mkworld (<[path := mkcsv df ff idx]> (files w)) (stdout w)).

Fixpoint for_each {A} (l : list A) (body : A → M unit) : M unit :=
  match l with
  | [] => ret ()
  | x :: rest => let* _ := body x in for_each rest body
  end.

(** [l[0:stop]] on a Python list: a negative [stop] counts from the end,
    and both ends are clipped to the list. *)
Definition slice_to {A} (l : list A) (stop : Z) : list A :=
  let n := Z.of_nat (length l) in
  let stop' := if stop <? 0 then Z.max 0 (stop + n) else Z.min stop n in
  take (Z.to_nat stop') l.

(** ** The scripts *)

Inductive CdecStationVariables : Type := SWE | SNOWDEPTH.

Section Scripts.

(** *** Collaborators *)

(** Text of a number, a timestamp or a point placed in an f-string. *)
Variable repr_float : float → string.
Variable repr_date : datetime → string.
Variable repr_point : point → string.

(** geopandas: the region read from a shapefile. *)
Variable region : Type.
Variable read_file : string → result region.

(** metloom: the stations of a region, the frame of their positions, the
    text of the collection, and the two per-station fetches, which
    answer [None] when the service holds nothing for the station. *)
Variable station : Type.
Variable station_id : station → string.
Variable points_from_geometry :
  region → list CdecStationVariables → bool → result (list station).
Variable to_dataframe : list station → frame.
Variable repr_points : list station → string.
Variable pnt_get_snow_course_data :
  station → datetime → datetime → list CdecStationVariables →
  result (option frame).
Variable pnt_get_daily_data :
  station → datetime → datetime → list CdecStationVariables →
  result (option frame).

(** [str(x)] as an f-string field applies it. *)
Definition py_str (x : scalar) : string :=
  match x with
  | SStr s => s
  | SInt z => NilEmpty.string_of_int (Z.to_int z)
  | SFloat f => repr_float f
  | SDate d => repr_date d
  | SGeom p => repr_point p
  end.

(** *** [make_snow_course_metadata] (both scripts carry the same text) *)

Definition make_snow_course_metadata : M unit :=
  let f := "sierras_outline.shp" in
  let! shp_df := read_file f in
  (* Find all the stations and courses in the sierras *)
  let! pnts := points_from_geometry shp_df [SWE] true in
  (* Convert to df *)
  let df := to_dataframe pnts in
  (* 1. Isolate location info from geometry *)
  let! g := geometry df in
  let df := setitem "lon" (geometry_x g) df in
  let! g := geometry df in
  let df := setitem "lat" (geometry_y g) df in
  let! g := geometry df in
  let! z := geometry_z g in
  let df := setitem "elev" z df in
  (* 2. Rename columns to better match *)
  let df := rename [("id", "station ID")] df in
  (* 3. Remove the geometry column *)
  let! df := drop "geometry" df in
  (* 4. Add State Code *)
  let df := setitem "statecode" (broadcast_str df "CA") df in
  (* 5. Set the file column order *)
  let columns_order := ["statecode"; "station ID"; "lat"; "lon"; "elev"] in
  (* 6. Dump to CSV *)
  let! out := select columns_order df in
  let* _ := to_csv out "Sierras_COURSE_station_info.csv" None false in
  print (repr_points pnts).

(** *** [organize_for_snowmodel] *)

(** The store [df['density'][ind] = ...] goes through the column that
    [df['density']] hands out; it is read here as pandas without
    copy-on-write performs it, writing the frame's column. *)

Definition organize_for_snowmodel (df : frame) (is_snowcourse : bool)
  : M unit :=
  (* Columns of interest to output *)
  let coi := ["Y"; "M"; "D"; "swe"; "depth"; "density"] in
  let state_code := "CA" in
  (* Decide site type *)
  let sitetype := if is_snowcourse then "SNOCOURSE" else "SMSITE" in
  (* 1. Reset how the dataframe is indexed *)
  let! df := reset_index df in
  (* Isolate the site id *)
  let! site := getitem "site" df in
  let! stationID := iloc0 site in
  (* 2. Separate out date format *)
  let date_col := if is_snowcourse then "measurementDate" else "datetime" in
  let! c := getitem date_col df in
  let! d := dt c in
  let df := setitem "Y" (ColInt (year <$> d)) df in
  let! c := getitem date_col df in
  let! d := dt c in
  let df := setitem "M" (ColStr (strftime_b <$> d)) df in
  let! c := getitem date_col df in
  let! d := dt c in
  let df := setitem "D" (ColStr (strftime_d <$> d)) df in
  (* 3. Rename columns *)
  let df := rename [("SWE", "swe"); ("SNOWDEPTH", "depth")] df in
  (* 4. convert SWE and depth from inches to mm and cm *)
  let! c := getitem "swe" df in
  let! c := mul_scalar c 25.4 in
  let df := setitem "swe" c df in
  let! c := getitem "depth" df in
  let! c := mul_scalar c 2.54 in
  let df := setitem "depth" c df in
  (* 4. Compute the density: set default value *)
  let df := setitem "density" (broadcast_int df 0) df in
  (* Filter to valid density data *)
  let! swe := getitem "swe" df in
  let! swe_pos := gt_zero swe in
  let! depth := getitem "depth" df in
  let! depth_pos := gt_zero depth in
  let ind := mask_and swe_pos depth_pos in
  (* Compute density using rho_pure_water * mass[meters] / depth[meters] *)
  let! swe := getitem "swe" df in
  let! swe_ind := boolean_getitem swe ind in
  let! depth := getitem "depth" df in
  let! depth_ind := boolean_getitem depth ind in
  let rhs :=
    series_div (scale (997 * 0.001) swe_ind) (scale 0.01 depth_ind) in
  let! density := getitem "density" df in
  let! density := masked_store density ind rhs in
  let df := setitem "density" density df in
  (* 5. Save each to its own file *)
  let out_file :=
    state_code +:+ "_" +:+ py_str stationID +:+ "_" +:+ sitetype +:+ ".csv" in
  let* _ := print ("Outputting data to " +:+ out_file) in
  let! out := select coi df in
  to_csv out out_file (Some "%.1f") false.

(** *** The two station loops *)

(** One turn of the loop of [get_snow_course_data]. *)
Definition pull_snow_course (start end_ : datetime)
    (variables : list CdecStationVariables) (pnt : station) : M unit :=
  let* _ := print ("Pulling " +:+ station_id pnt) in
  let! df := pnt_get_snow_course_data pnt start end_ variables in
  (* Account for sites that return null for whatever reason *)
  match df with
  | Some df => organize_for_snowmodel df true
  | None => ret ()
  end.

Definition get_snow_course_data (start end_ : datetime) (limit : option Z)
  : M unit :=
  (* Use limit if testing/debugging *)
  let limit := match limit with None => -1 | Some n => n end in
  let variables := [SWE; SNOWDEPTH] in
  let f := "sierras_outline.shp" in
  let! shp_df := read_file f in
  let* _ := print "Finding all points in Sierras..." in
  let! pnts := points_from_geometry shp_df [SWE] true in
  for_each (slice_to pnts limit) (pull_snow_course start end_ variables).

(** One turn of the loop of [get_cdec_snotel_data]. *)
Definition pull_daily (start end_ : datetime)
    (variables : list CdecStationVariables) (pnt : station) : M unit :=
  let* _ := print ("Pulling " +:+ station_id pnt) in
  let! df := pnt_get_daily_data pnt start end_ variables in
  match df with
  | Some df => organize_for_snowmodel df false
  | None => ret ()
  end.

Definition get_cdec_snotel_data (start end_ : datetime) (limit : option Z)
  : M unit :=
  (* Limit number of stations if testing *)
  let limit := match limit with None => -1 | Some n => n end in
  let variables := [SWE; SNOWDEPTH] in
  let f := "sierras_outline.shp" in
  let! shp_df := read_file f in
  let* _ := print "Finding all points in Sierras..." in
  let! pnts := points_from_geometry shp_df [SWE] false in
  for_each (slice_to pnts limit) (pull_daily start end_ variables).

Definition main : M unit :=
  let start := mkdate 2023 Oct 1 in
  let end_ := mkdate 2024 Sep 30 in
  let* _ := make_snow_course_metadata in
  let* _ := get_snow_course_data start end_ (Some 3) in
  get_cdec_snotel_data start end_ (Some 3).

End Scripts.

(** ** The text of a CSV file *)

Section Rendering.

(** The text of a number under [float_format % x], of a number without a
    format, of a timestamp and of a point. *)
Variable format_float : string → float → string.
Variable repr_float : float → string.
Variable repr_date : datetime → string.
Variable repr_point : point → string.

Definition dquote : string := String (ascii_of_nat 34) EmptyString.

Fixpoint string_exists (p : ascii → bool) (s : string) : bool :=
  match s with
  | EmptyString => false
  | String c rest => p c || string_exists p rest
  end.

Fixpoint double_quotes (s : string) : string :=
  match s with
  | EmptyString => EmptyString
  | String c rest =>
      if Ascii.eqb c (ascii_of_nat 34)
      then String c (String c (double_quotes rest))
      else String c (double_quotes rest)
  end.

(** The writer's minimal quoting: a field holding the separator, a quote
    or a line break is quoted, its quotes doubled. *)
Definition csv_field (s : string) : string :=
  let special c :=
    Ascii.eqb c (ascii_of_nat 44) || Ascii.eqb c (ascii_of_nat 34) ||
    Ascii.eqb c (ascii_of_nat 10) || Ascii.eqb c (ascii_of_nat 13) in
  if string_exists special s
  then dquote +:+ double_quotes s +:+ dquote
  else s.

(** One cell; a missing number is written as the empty field. *)
Definition csv_cell (ff : option string) (c : column) (i : nat) : string :=
  match c with
  | ColFloat v =>
      match v !! i with
      | Some x =>
          if is_nan x then EmptyString
          else match ff with
               | Some fmt => format_float fmt x
               | None => repr_float x
               end
      | None => EmptyString
      end
  | ColInt v =>
      from_option (λ z, NilEmpty.string_of_int (Z.to_int z)) EmptyString (v !! i)
  | ColStr v => from_option csv_field EmptyString (v !! i)
  | ColDate v => from_option (λ d, csv_field (repr_date d)) EmptyString (v !! i)
  | ColGeom v => from_option (λ p, csv_field (repr_point p)) EmptyString (v !! i)
  end.

(** The columns written: the index levels lead when the index is asked
    for, the default index as an unnamed column of row numbers. *)
Definition csv_columns (f : csv_file) : list (string * column) :=
  let df := csv_table f in
  if csv_index f then
    match index df with
    | [] => [(EmptyString, ColInt (Z.of_nat <$> seq 0 (nrows df)))]
    | levels => levels
    end ++ columns df
  else columns df.

(** The fields of the file, line by line: the header, then the rows. *)
Definition csv_fields (f : csv_file) : list (list string) :=
  let cols := csv_columns f in
  (csv_field <$> labels cols) ::
  ((λ i, (λ kc, csv_cell (csv_float_format f) kc.2 i) <$> cols)
     <$> seq 0 (nrows (csv_table f))).

Definition render_csv (f : csv_file) : list string :=
  String.concat "," <$> csv_fields f.

End Rendering.

(** ** The density of one row *)

(** The density of one row, as step 4 of [organize_for_snowmodel] leaves
    it: the default where the mask is false, the quotient where it holds. *)
Definition density_of (swe depth : float) : float :=
  if ((0 <? swe) && (0 <? depth))%float
  then (997 * 0.001 * swe / (0.01 * depth))%float
  else 0%float.

(** The column operations of step 4, on the converted columns. *)
Definition density_column (n : nat) (swe depth : list float) : result column :=
  let ind := mask_and ((λ x, 0 <? x)%float <$> swe)
                      ((λ x, 0 <? x)%float <$> depth) in
  let? swe_ind := boolean_getitem (ColFloat swe) ind in
  let? depth_ind := boolean_getitem (ColFloat depth) ind in
  masked_store (ColInt (replicate n 0)) ind
    (series_div (scale (997 * 0.001) swe_ind) (scale 0.01 depth_ind)).

(** ** Observation tables and the table written for them *)

(** The columns [organize_for_snowmodel] reads. *)
Record observations : Type := mkobs {
  obs_site : list string;
  obs_date : list datetime;
  obs_SWE : list float;         (* inches *)
  obs_SNOWDEPTH : list float    (* inches *)
}.

Definition date_column (is_snowcourse : bool) : string :=
  if is_snowcourse then "measurementDate" else "datetime".

Definition str_values (c : column) : option (list string) :=
  match c with ColStr v => Some v | _ => None end.
Definition date_values (c : column) : option (list datetime) :=
  match c with ColDate v => Some v | _ => None end.
Definition float_values (c : column) : option (list float) :=
  match c with ColFloat v => Some v | _ => None end.

(** A frame read as an observation table, the way the fetches of metloom
    hand it over: once the index is reset there are a [site] column of
    strings, the date column of the record kind, and [SWE] and [SNOWDEPTH]
    as floats, and no column is called [swe] or [depth] yet. *)
Definition observations_of (is_snowcourse : bool) (df : frame)
  : option observations :=
  match reset_index df with
  | Ok df1 =>
      s ← lookup_col "site" (columns df1) ≫= str_values;
      d ← lookup_col (date_column is_snowcourse) (columns df1) ≫= date_values;
      a ← lookup_col "SWE" (columns df1) ≫= float_values;
      b ← lookup_col "SNOWDEPTH" (columns df1) ≫= float_values;
      match lookup_col "swe" (columns df1), lookup_col "depth" (columns df1) with
      | None, None => Some (mkobs s d a b)
      | _, _ => None
      end
  | Raise _ => None
  end.

(** Millimetres and centimetres of the converted columns. *)
Definition swe_mm (obs : observations) : list float :=
  (λ x, x * 25.4)%float <$> obs_SWE obs.
Definition depth_cm (obs : observations) : list float :=
  (λ x, x * 2.54)%float <$> obs_SNOWDEPTH obs.

(** The table the formatter writes for an observation table of [n] rows. *)
Definition snowmodel_table (n : nat) (obs : observations) : frame :=
  mkframe n []
    [("Y", ColInt (year <$> obs_date obs));
     ("M", ColStr (strftime_b <$> obs_date obs));
     ("D", ColStr (strftime_d <$> obs_date obs));
     ("swe", ColFloat (swe_mm obs));
     ("depth", ColFloat (depth_cm obs));
     ("density", ColFloat (zip_with density_of (swe_mm obs) (depth_cm obs)))].

(** The name of the file of a station. *)
Definition station_file (is_snowcourse : bool) (stationID : string) : string :=
  "CA_" +:+ stationID +:+
  (if is_snowcourse then "_SNOCOURSE.csv" else "_SMSITE.csv").

Abbreviation snow_labels := [("SWE", "swe"); ("SNOWDEPTH", "depth")] (only parsing).

(** ** Reading a written table *)

(** The value a table holds in row [i] of column [k], by dtype. *)
Definition float_at (k : string) (i : nat) (tbl : frame) : option float :=
  c ← lookup_col k (columns tbl); v ← float_values c; v !! i.

Definition str_at (k : string) (i : nat) (tbl : frame) : option string :=
  c ← lookup_col k (columns tbl); v ← str_values c; v !! i.

Definition int_at (k : string) (i : nat) (tbl : frame) : option Z :=
  c ← lookup_col k (columns tbl);
  match c with ColInt v => v !! i | _ => None end.

(** The world a successful run of the formatter leaves: one line printed,
    one file written with one decimal and without the index. *)
Definition formatted (w : world) (path : string) (tbl : frame) : world :=
  mkworld (<[path := mkcsv tbl (Some "%.1f") false]> (files w))
          (stdout w ++ ["Outputting data to " +:+ path]).

(** The world a successful run of the metadata formatter leaves: the
    table written with the default number format and without the index,
    then the text of the stations printed. *)
Definition metadata_written (w : world) (tbl : frame) (line : string)
  : world :=
  mkworld (<["Sierras_COURSE_station_info.csv" := mkcsv tbl None false]>
             (files w))
          (stdout w ++ [line]).

(** ** The table written for the stations *)

(** What [make_snow_course_metadata] writes for the frame of the stations:
    the five columns of step 5, taken from the geometry and from [id]. *)
Definition metadata_table (df : frame) : result frame :=
  match lookup_col "geometry" (columns df) with
  | None => Raise (KeyError "geometry")
  | Some (ColGeom g) =>
      let? elev := geometry_z g in
      match lookup_col "id" (columns df) with
      | Some ids =>
          Ok (mkframe (nrows df) (index df)
                [("statecode", ColStr (replicate (nrows df) "CA"));
                 ("station ID", ids);
                 ("lat", geometry_y g);
                 ("lon", geometry_x g);
                 ("elev", elev)])
      | None => Raise (KeyError "station ID")
      end
  | Some _ => Raise AttributeError
  end.

(** ** Sample data *)

(** A sensor table of four daily rows of station ABC.  The inches are
    chosen so that the converted values are 100 mm over 50 cm, 0 mm over
    10 cm, 10 mm over 0 cm, and one inch of each. *)
Definition sample_sensor : frame :=
  mkframe 4
    [("datetime",
      ColDate [mkdate 2024 Jan 15; mkdate 2023 Oct 5;
               mkdate 2024 Feb 1; mkdate 2024 Mar 31]);
     ("site", ColStr ["ABC"; "ABC"; "ABC"; "ABC"])]
    [("SWE",
      ColFloat [3.937007874015748; 0; 0.3937007874015748; 1.0]%float);
     ("SWE_units", ColStr ["inches"; "inches"; "inches"; "inches"]);
     ("SNOWDEPTH",
      ColFloat [19.68503937007874; 3.937007874015748; 0; 1.0]%float);
     ("SNOWDEPTH_units", ColStr ["inches"; "inches"; "inches"; "inches"])].

Definition sample_sensor_obs : observations :=
  mkobs ["ABC"; "ABC"; "ABC"; "ABC"]
    [mkdate 2024 Jan 15; mkdate 2023 Oct 5; mkdate 2024 Feb 1;
     mkdate 2024 Mar 31]
    [3.937007874015748; 0; 0.3937007874015748; 1.0]%float
    [19.68503937007874; 3.937007874015748; 0; 1.0]%float.

(** The monthly snow-course table of a station: the survey is dated by
    [measurementDate], the index by the first of the month. *)
Definition sample_course (site : string) : frame :=
  mkframe 2
    [("datetime", ColDate [mkdate 2024 Feb 1; mkdate 2024 Mar 1]);
     ("site", ColStr [site; site])]
    [("measurementDate", ColDate [mkdate 2024 Jan 28; mkdate 2024 Feb 27]);
     ("SWE", ColFloat [12.5; 20.0]%float);
     ("SNOWDEPTH", ColFloat [40.0; 55.5]%float)].

Definition sample_course_obs (site : string) : observations :=
  mkobs [site; site] [mkdate 2024 Jan 28; mkdate 2024 Feb 27]
    [12.5; 20.0]%float [40.0; 55.5]%float.

(** A table without rows. *)
Definition sample_empty : frame :=
  mkframe 0
    [("datetime", ColDate []); ("site", ColStr [])]
    [("SWE", ColFloat []); ("SNOWDEPTH", ColFloat [])].

(** Collaborators of a world with three stations, named by their
    identifiers; [sample_absent] is the station the service holds nothing
    for. *)
Definition sample_text {A} (_ : A) : string := "?".
Definition sample_read_file (_ : string) : result unit := Ok ().
Definition sample_points (_ : unit) (_ : list CdecStationVariables)
    (_ : bool) : result (list string) :=
  Ok ["AAA"; "BBB"; "CCC"].
Definition sample_fetch (pnt : string) (_ _ : datetime)
    (_ : list CdecStationVariables) : result (option frame) :=
  Ok (Some (sample_course pnt)).
Definition sample_absent (pnt : string) (_ _ : datetime)
    (_ : list CdecStationVariables) : result (option frame) :=
  if decide (pnt = "BBB") then Ok None else Ok (Some (sample_course pnt)).

(** The frame of the stations, with the elevation [z] of every point. *)
Definition sample_stations (z : option float) (pnts : list string) : frame :=
  mkframe (length pnts) []
    [("name", ColStr pnts);
     ("id", ColStr pnts);
     ("datasource", ColStr (replicate (length pnts) "CDEC"));
     ("geometry", ColGeom ((λ _, mkpoint (-120.5) 38.5 z) <$> pnts))].

(** The same frame with its columns in the opposite order. *)
Definition sample_stations_reversed (z : option float) (pnts : list string)
  : frame :=
  mkframe (length pnts) [] (reverse (columns (sample_stations z pnts))).

Definition empty_world : world := mkworld ∅ [].

(** * Properties *)

(** ** Frames *)

Lemma lookup_col_None k cols :
  lookup_col k cols = None ↔ k ∉ labels cols.
Proof.
  induction cols as [|[k' c] cols IH]; simpl.
  - split; [intros _; apply not_elem_of_nil | done].
  - rewrite not_elem_of_cons. case_decide as E.
    + split; [done | intros [? _]; done].
    + rewrite IH. split; [by split | by intros [_ ?]].
Qed.

Lemma lookup_col_Some_elem k c cols :
  lookup_col k cols = Some c → (k, c) ∈ cols.
Proof.
  induction cols as [|[k' c'] cols IH]; simpl; [done|].
  case_decide as E; intros Hc.
  - simplify_eq. apply list_elem_of_here.
  - apply list_elem_of_further, IH, Hc.
Qed.

Lemma elem_lookup_col k c cols :
  NoDup (labels cols) → (k, c) ∈ cols → lookup_col k cols = Some c.
Proof.
  induction cols as [|[k' c'] cols IH]; simpl.
  - intros _ H. by apply elem_of_nil in H.
  - rewrite NoDup_cons. intros [Hk Hnd] H.
    apply elem_of_cons in H as [H|H].
    + simplify_eq. by rewrite decide_True.
    + case_decide as E; [|by apply IH].
      subst k'. exfalso. apply Hk.
      apply list_elem_of_fmap. by exists (k, c).
Qed.

(** With distinct labels a column is found by its label alone, whatever the
    order of the columns. *)
Lemma lookup_col_Permutation k cols cols' :
  NoDup (labels cols) → cols ≡ₚ cols' →
  lookup_col k cols = lookup_col k cols'.
Proof.
  intros Hnd Hp.
  assert (Hnd' : NoDup (labels cols')).
  { unfold labels. by rewrite <- Hp. }
  destruct (lookup_col k cols) as [c|] eqn:E.
  - symmetry. apply elem_lookup_col; [done|].
    rewrite <- Hp. by apply lookup_col_Some_elem.
  - destruct (lookup_col k cols') as [c'|] eqn:E'; [|done].
    apply lookup_col_Some_elem in E'. rewrite <- Hp in E'.
    apply elem_lookup_col in E'; [congruence | done].
Qed.

Lemma lookup_replace_col k k' c cols :
  lookup_col k (replace_col k' c cols) =
  if decide (k = k') then (λ _, c) <$> lookup_col k cols
  else lookup_col k cols.
Proof.
  induction cols as [|[k0 c0] cols IH]; simpl.
  - by destruct (decide (k = k')).
  - destruct (decide (k = k')) as [->|Hne].
    + by destruct (decide (k' = k0)) as [->|Hne0].
    + destruct (decide (k = k0)) as [->|Hne0]; [|done].
      by rewrite decide_False by congruence.
Qed.

Lemma lookup_app_col k cols cols' :
  lookup_col k (cols ++ cols') =
  match lookup_col k cols with
  | Some c => Some c
  | None => lookup_col k cols'
  end.
Proof.
  induction cols as [|[k0 c0] cols IH]; simpl; [done|].
  by destruct (decide (k = k0)).
Qed.

Lemma lookup_setitem_eq k c df :
  lookup_col k (columns (setitem k c df)) = Some c.
Proof.
  unfold setitem; simpl. case_decide as E.
  - rewrite lookup_replace_col, decide_True by done.
    destruct (lookup_col k (columns df)) eqn:E'; [done|].
    by apply lookup_col_None in E'.
  - apply lookup_col_None in E. rewrite lookup_app_col, E; simpl.
    by rewrite decide_True.
Qed.

Lemma lookup_setitem_ne k k' c df :
  k ≠ k' → lookup_col k (columns (setitem k' c df)) = lookup_col k (columns df).
Proof.
  intros Hne. unfold setitem; simpl. case_decide as E.
  - by rewrite lookup_replace_col, decide_False.
  - rewrite lookup_app_col; simpl. rewrite decide_False by done.
    by destruct (lookup_col k (columns df)).
Qed.

(** A renamed frame holds under [k] what the frame held under [k0], when
    [k0] is the one label of the frame that the renaming sends to [k]. *)
Lemma lookup_rename k k0 mapping df :
  (∀ k', k' ∈ labels (columns df) →
         rename_label mapping k' = k ↔ k' = k0) →
  lookup_col k (columns (rename mapping df)) = lookup_col k0 (columns df).
Proof.
  unfold rename; simpl.
  induction (columns df) as [|[k1 c1] cols IH]; intros H; simpl; [done|].
  assert (Hk1 : rename_label mapping k1 = k ↔ k1 = k0).
  { apply H. simpl. apply list_elem_of_here. }
  assert (Hrest : lookup_col k (prod_map (rename_label mapping) id <$> cols)
                  = lookup_col k0 cols).
  { apply IH. intros k' Hk'. apply H. simpl. by apply list_elem_of_further. }
  destruct (decide (k = rename_label mapping k1)) as [E|E],
    (decide (k0 = k1)) as [E0|E0]; try done.
  - exfalso. apply E0. symmetry. by apply Hk1.
  - exfalso. apply E. symmetry. by apply Hk1.
Qed.

Lemma nrows_setitem k c df : nrows (setitem k c df) = nrows df.
Proof. done. Qed.

(** ** The density column *)

Lemma density_column_rows n swe depth :
  length swe = n → length depth = n →
  density_column n swe depth = Ok (ColFloat (zip_with density_of swe depth)).
Proof.
  intros Hs Hd. unfold density_column, masked_store, mask_and; simpl.
  do 2 f_equal. apply list_eq. intros i.
  unfold series_div, scale.
  repeat (rewrite lookup_zip_with || rewrite list_lookup_fmap).
  destruct (swe !! i) as [s|] eqn:Es; simpl.
  - destruct (depth !! i) as [d|] eqn:Ed; simpl.
    + rewrite lookup_replicate_2
        by (rewrite <- Hs; eapply lookup_lt_Some; eassumption).
      simpl. unfold density_of.
      by destruct (0 <? s)%float, (0 <? d)%float.
    + by destruct (replicate n 0 !! i).
  - assert (E : replicate n 0 !! i = None).
    { apply lookup_replicate_None. apply lookup_ge_None in Es. lia. }
    by rewrite E.
Qed.

(** ** Observation tables *)

Lemma rename_label_two a b c d k :
  rename_label [(a, b); (c, d)] k =
  if decide (a = k) then b else if decide (c = k) then d else k.
Proof.
  unfold rename_label; simpl.
  destruct (decide (a = k)); [done|]. by destruct (decide (c = k)).
Qed.

Lemma rename_label_one a b k :
  rename_label [(a, b)] k = if decide (a = k) then b else k.
Proof. unfold rename_label; simpl. by destruct (decide (a = k)). Qed.

Lemma lookup_rename_snow_other k df :
  k ∉ ["SWE"; "SNOWDEPTH"; "swe"; "depth"] →
  lookup_col k (columns (rename snow_labels df)) = lookup_col k (columns df).
Proof.
  intros Hk. apply lookup_rename. intros k' _.
  rewrite rename_label_two.
  rewrite !not_elem_of_cons in Hk. destruct Hk as (H1 & H2 & H3 & H4 & _).
  repeat case_decide; naive_solver.
Qed.

Lemma lookup_rename_snow_swe df :
  lookup_col "swe" (columns df) = None →
  lookup_col "swe" (columns (rename snow_labels df))
  = lookup_col "SWE" (columns df).
Proof.
  intros Hk. apply lookup_rename. intros k' Hk'.
  rewrite rename_label_two.
  apply lookup_col_None in Hk.
  repeat case_decide; naive_solver.
Qed.

Lemma lookup_rename_snow_depth df :
  lookup_col "depth" (columns df) = None →
  lookup_col "depth" (columns (rename snow_labels df))
  = lookup_col "SNOWDEPTH" (columns df).
Proof.
  intros Hk. apply lookup_rename. intros k' Hk'.
  rewrite rename_label_two.
  apply lookup_col_None in Hk.
  repeat case_decide; naive_solver.
Qed.

Lemma nrows_rename m df : nrows (rename m df) = nrows df.
Proof. done. Qed.

Lemma reset_index_nrows df df1 :
  reset_index df = Ok df1 → nrows df1 = nrows df.
Proof.
  unfold reset_index. intros H.
  destruct (index df); repeat case_decide; by simplify_eq.
Qed.

Lemma reset_index_index df df1 :
  reset_index df = Ok df1 → index df1 = [].
Proof.
  unfold reset_index. intros H.
  destruct (index df); repeat case_decide; by simplify_eq.
Qed.

Lemma index_setitem k c df : index (setitem k c df) = index df.
Proof. done. Qed.

Lemma index_rename m df : index (rename m df) = index df.
Proof. done. Qed.

Lemma reset_index_lengths df df1 :
  wf_frame df → reset_index df = Ok df1 →
  Forall (λ kc, col_length kc.2 = nrows df1) (columns df1).
Proof.
  intros [_ Hlen] H. rewrite (reset_index_nrows _ _ H).
  apply Forall_app in Hlen as [Hi Hc].
  unfold reset_index in H.
  destruct (index df) as [|l ls] eqn:E.
  - repeat case_decide; simplify_eq; simpl;
      (apply Forall_cons; split; [simpl; by rewrite length_fmap, length_seq | done]).
  - case_decide; simplify_eq; cbn [columns].
    change (l :: ls ++ columns df) with ((l :: ls) ++ columns df).
    apply Forall_app. by split.
Qed.

Lemma lookup_col_length k c df :
  Forall (λ kc, col_length kc.2 = nrows df) (columns df) →
  lookup_col k (columns df) = Some c → col_length c = nrows df.
Proof.
  intros Hall H. apply lookup_col_Some_elem in H.
  rewrite Forall_forall in Hall. apply (Hall _ H).
Qed.

(** What [observations_of] found, column by column. *)
Lemma observations_of_inv is_snowcourse df obs :
  observations_of is_snowcourse df = Some obs →
  ∃ df1,
    reset_index df = Ok df1 ∧
    lookup_col "site" (columns df1) = Some (ColStr (obs_site obs)) ∧
    lookup_col (date_column is_snowcourse) (columns df1)
      = Some (ColDate (obs_date obs)) ∧
    lookup_col "SWE" (columns df1) = Some (ColFloat (obs_SWE obs)) ∧
    lookup_col "SNOWDEPTH" (columns df1)
      = Some (ColFloat (obs_SNOWDEPTH obs)) ∧
    lookup_col "swe" (columns df1) = None ∧
    lookup_col "depth" (columns df1) = None.
Proof.
  unfold observations_of. intros Hobs.
  destruct (reset_index df) as [df1|] eqn:Hreset; [|done].
  exists df1. split; [done|].
  destruct (lookup_col "site" (columns df1)) as [[| |sites| |]|];
    try done; simpl in Hobs.
  destruct (lookup_col (date_column is_snowcourse) (columns df1))
    as [[| | |dates|]|]; try done; simpl in Hobs.
  destruct (lookup_col "SWE" (columns df1)) as [[a| | | |]|];
    try done; simpl in Hobs.
  destruct (lookup_col "SNOWDEPTH" (columns df1)) as [[b| | | |]|];
    try done; simpl in Hobs.
  destruct (lookup_col "swe" (columns df1)); [done|].
  destruct (lookup_col "depth" (columns df1)); [done|].
  by injection Hobs as <-.
Qed.

Arguments setitem : simpl never.
Arguments rename : simpl never.
Arguments lookup_col : simpl never.

(** ** The observation formatter *)

Section Formatter.

Variable repr_float : float → string.
Variable repr_date : datetime → string.
Variable repr_point : point → string.

Local Abbreviation organize :=
  (organize_for_snowmodel repr_float repr_date repr_point).

Ltac run_step :=
  cbv beta iota zeta
    delta [bind pure ret getitem iloc0 dt mul_scalar gt_zero rbind
           boolean_getitem broadcast_int select select_cols py_str].

Ltac frame_lookup :=
  repeat first
    [ rewrite lookup_setitem_eq
    | rewrite lookup_setitem_ne by done
    | rewrite lookup_rename_snow_other
        by (rewrite !not_elem_of_cons; repeat split;
            (done || apply not_elem_of_nil))
    | rewrite lookup_rename_snow_swe by (frame_lookup; assumption)
    | rewrite lookup_rename_snow_depth by (frame_lookup; assumption) ].

(** On an observation table with at least one row the formatter
    succeeds: it prints the file name and writes the table. *)
Lemma organize_observations df is_snowcourse obs s rest w :
  wf_frame df →
  observations_of is_snowcourse df = Some obs →
  obs_site obs = s :: rest →
  organize df is_snowcourse w =
    (Ok (), formatted w (station_file is_snowcourse s)
                        (snowmodel_table (nrows df) obs)).
Proof.
  intros Hwf Hobs Hsite.
  destruct (observations_of_inv _ _ _ Hobs)
    as (df1 & Hreset & Esite & Edate & Eswe & Edepth & Eswe' & Edepth').
  destruct obs as [sites dates a b]; simpl in *. subst sites.
  pose proof (reset_index_nrows _ _ Hreset) as Hn.
  pose proof (reset_index_lengths _ _ Hwf Hreset) as Hlen.
  pose proof (lookup_col_length _ _ _ Hlen Eswe) as Ha.
  pose proof (lookup_col_length _ _ _ Hlen Edepth) as Hb.
  simpl in Ha, Hb.
  destruct is_snowcourse; unfold date_column in Edate.
  all: unfold organize_for_snowmodel; run_step; rewrite Hreset; run_step.
  all: rewrite Esite; run_step.
  all: frame_lookup; rewrite Edate; run_step.
  all: frame_lookup; rewrite Edate; run_step.
  all: frame_lookup; rewrite Edate; run_step.
  all: frame_lookup; rewrite Eswe; run_step.
  all: frame_lookup; rewrite Edepth; run_step.
  all: frame_lookup; run_step.
  all: rewrite !nrows_setitem, !nrows_rename, !nrows_setitem.
  all: pose proof (density_column_rows (nrows df1)
                     ((λ x, x * 25.4)%float <$> a)
                     ((λ x, x * 2.54)%float <$> b)) as HD.
  all: rewrite !length_fmap in HD; specialize (HD Ha Hb).
  all: unfold density_column in HD; cbv beta iota zeta delta [boolean_getitem rbind] in HD.
  all: rewrite HD; run_step; unfold print, to_csv; run_step.
  all: frame_lookup.
  all: rewrite !nrows_setitem, !nrows_rename, !nrows_setitem, Hn.
  all: rewrite !index_setitem, !index_rename, !index_setitem.
  all: rewrite (reset_index_index _ _ Hreset).
  all: reflexivity.
Qed.

Lemma snowmodel_table_swe n obs i :
  float_at "swe" i (snowmodel_table n obs) = swe_mm obs !! i.
Proof. reflexivity. Qed.

Lemma snowmodel_table_depth n obs i :
  float_at "depth" i (snowmodel_table n obs) = depth_cm obs !! i.
Proof. reflexivity. Qed.

Lemma snowmodel_table_density n obs i swe depth :
  swe_mm obs !! i = Some swe → depth_cm obs !! i = Some depth →
  float_at "density" i (snowmodel_table n obs) = Some (density_of swe depth).
Proof.
  intros Hs Hd. change (float_at "density" i (snowmodel_table n obs))
    with (zip_with density_of (swe_mm obs) (depth_cm obs) !! i).
  by rewrite lookup_zip_with, Hs, Hd.
Qed.


(** A binary64 value that is at most zero is not greater than zero (a NaN
    is neither). *)
Lemma not_positive x : (x <=? 0)%float = true → (0 <? x)%float = false.
Proof.
  rewrite leb_spec, ltb_spec.
  change (Prim2SF 0) with (S754_zero false).
  unfold SFleb, SFltb.
  destruct (Prim2SF x) as [sg|sg| |sg m e]; simpl; try done;
    by destruct sg.
Qed.

(** C3.  Row by row of the input: when the converted [swe] or the
    converted [depth] is at most zero, the formatter writes the converted
    values under [swe] and [depth] and the number zero as density, the
    default of step 4 and not a missing value.  So it does for a row
    converted to 0 mm over 10 cm and for one converted to 10 mm over
    0 cm. *)
Theorem C3_density_default_zero df is_snowcourse obs s rest w :
  wf_frame df →
  observations_of is_snowcourse df = Some obs →
  obs_site obs = s :: rest →
  ∃ tbl,
    organize df is_snowcourse w
      = (Ok (), formatted w (station_file is_snowcourse s) tbl) ∧
    (∀ i swe_in depth_in,
        obs_SWE obs !! i = Some swe_in →
        obs_SNOWDEPTH obs !! i = Some depth_in →
        let swe := (swe_in * 25.4)%float in
        let depth := (depth_in * 2.54)%float in
        (swe <=? 0)%float = true ∨ (depth <=? 0)%float = true →
        float_at "swe" i tbl = Some swe ∧
        float_at "depth" i tbl = Some depth ∧
        float_at "density" i tbl = Some 0%float) ∧
    (∀ i swe_in depth_in,
        obs_SWE obs !! i = Some swe_in →
        obs_SNOWDEPTH obs !! i = Some depth_in →
        ((swe_in * 25.4)%float = 0%float ∧
         (depth_in * 2.54)%float = 10%float) ∨
        ((swe_in * 25.4)%float = 10%float ∧
         (depth_in * 2.54)%float = 0%float) →
        float_at "density" i tbl = Some 0%float).
Proof.
  intros Hwf Hobs Hsite. exists (snowmodel_table (nrows df) obs).
  split; [by eapply organize_observations|].
  assert (Hrow : ∀ i swe_in depth_in,
    obs_SWE obs !! i = Some swe_in →
    obs_SNOWDEPTH obs !! i = Some depth_in →
    float_at "swe" i (snowmodel_table (nrows df) obs)
      = Some (swe_in * 25.4)%float ∧
    float_at "depth" i (snowmodel_table (nrows df) obs)
      = Some (depth_in * 2.54)%float ∧
    float_at "density" i (snowmodel_table (nrows df) obs)
      = Some (density_of (swe_in * 25.4) (depth_in * 2.54))).
  { intros i swe_in depth_in Hs Hd.
    assert (Hs' : swe_mm obs !! i = Some (swe_in * 25.4)%float).
    { unfold swe_mm. by rewrite list_lookup_fmap, Hs. }
    assert (Hd' : depth_cm obs !! i = Some (depth_in * 2.54)%float).
    { unfold depth_cm. by rewrite list_lookup_fmap, Hd. }
    rewrite snowmodel_table_swe, snowmodel_table_depth.
    by rewrite (snowmodel_table_density _ _ _ _ _ Hs' Hd'). }
  split.
  - intros i swe_in depth_in Hs Hd swe depth Hle.
    destruct (Hrow i swe_in depth_in Hs Hd) as (Hswe & Hdepth & Hdens).
    split; [exact Hswe|]. split; [exact Hdepth|].
    rewrite Hdens. unfold density_of. fold swe depth.
    destruct Hle as [Hle|Hle].
    + by rewrite (not_positive _ Hle).
    + rewrite (not_positive _ Hle). by rewrite andb_false_r.
  - intros i swe_in depth_in Hs Hd Hcase.
    destruct (Hrow i swe_in depth_in Hs Hd) as (_ & _ & Hdens).
    rewrite Hdens. by destruct Hcase as [[-> ->]|[-> ->]].
Qed.

(** C5.  The inches the input holds under [SWE] and [SNOWDEPTH] are written
    under the renamed labels [swe] and [depth], multiplied by 25.4 and by
    2.54, and the density of the row is computed from the converted
    values.  Before the renaming there is no [swe] or [depth] column to
    convert.  One inch gives the doubles 25.4 and 2.54. *)
Theorem C5_units_after_rename_before_density df is_snowcourse obs s rest w :
  wf_frame df →
  observations_of is_snowcourse df = Some obs →
  obs_site obs = s :: rest →
  ∃ df1 tbl,
    reset_index df = Ok df1 ∧
    getitem "SWE" df1 = Ok (ColFloat (obs_SWE obs)) ∧
    getitem "SNOWDEPTH" df1 = Ok (ColFloat (obs_SNOWDEPTH obs)) ∧
    getitem "swe" df1 = Raise (KeyError "swe") ∧
    getitem "depth" df1 = Raise (KeyError "depth") ∧
    organize df is_snowcourse w
      = (Ok (), formatted w (station_file is_snowcourse s) tbl) ∧
    (∀ i swe_in depth_in,
        obs_SWE obs !! i = Some swe_in →
        obs_SNOWDEPTH obs !! i = Some depth_in →
        float_at "swe" i tbl = Some (swe_in * 25.4)%float ∧
        float_at "depth" i tbl = Some (depth_in * 2.54)%float ∧
        float_at "density" i tbl
          = Some (density_of (swe_in * 25.4) (depth_in * 2.54))) ∧
    (1.0 * 25.4 = 25.4)%float ∧ (1.0 * 2.54 = 2.54)%float.
Proof.
  intros Hwf Hobs Hsite.
  destruct (observations_of_inv _ _ _ Hobs)
    as (df1 & Hreset & _ & _ & Eswe & Edepth & Eswe' & Edepth').
  exists df1, (snowmodel_table (nrows df) obs). unfold getitem.
  rewrite Eswe, Edepth, Eswe', Edepth'.
  do 5 (split; [done|]). split; [by eapply organize_observations|].
  split; [|done]. intros i swe_in depth_in Hs Hd.
  assert (Hs' : swe_mm obs !! i = Some (swe_in * 25.4)%float).
  { unfold swe_mm. by rewrite list_lookup_fmap, Hs. }
  assert (Hd' : depth_cm obs !! i = Some (depth_in * 2.54)%float).
  { unfold depth_cm. by rewrite list_lookup_fmap, Hd. }
  rewrite snowmodel_table_swe, snowmodel_table_depth.
  by rewrite (snowmodel_table_density _ _ _ _ _ Hs' Hd').
Qed.

(** C7.  The station identifier is the [site] of the first row; the
    formatter writes the file [CA_<id>_SNOCOURSE.csv] for a snow course and
    [CA_<id>_SMSITE.csv] otherwise, and no other file. *)
Theorem C7_output_file_name df is_snowcourse obs s rest w :
  wf_frame df →
  observations_of is_snowcourse df = Some obs →
  obs_site obs = s :: rest →
  let path :=
    if is_snowcourse then "CA_" +:+ s +:+ "_SNOCOURSE.csv"
    else "CA_" +:+ s +:+ "_SMSITE.csv" in
  ∃ tbl w',
    organize df is_snowcourse w = (Ok (), w') ∧
    files w' !! path = Some (mkcsv tbl (Some "%.1f") false) ∧
    (∀ other, other ≠ path → files w' !! other = files w !! other) ∧
    stdout w' = stdout w ++ ["Outputting data to " +:+ path].
Proof.
  intros Hwf Hobs Hsite path.
  exists (snowmodel_table (nrows df) obs).
  eexists. split; [by eapply organize_observations|].
  assert (Hp : station_file is_snowcourse s = path) by by destruct is_snowcourse.
  rewrite Hp. unfold formatted; simpl. split; [apply lookup_insert_eq|].
  split; [|done]. intros other Hne. by apply lookup_insert_ne.
Qed.

Lemma strftime_b_length d : String.length (strftime_b d) = 3%nat.
Proof. unfold strftime_b. by destruct (mon d). Qed.

Lemma strftime_d_length d :
  (day d < 100)%nat → String.length (strftime_d d) = 2%nat.
Proof.
  destruct d as [y m n]; simpl. intros Hn.
  do 100 (destruct n as [|n]; [reflexivity|]). lia.
Qed.

Lemma table_dates n obs i d :
  obs_date obs !! i = Some d →
  int_at "Y" i (snowmodel_table n obs) = Some (year d) ∧
  str_at "M" i (snowmodel_table n obs) = Some (strftime_b d) ∧
  str_at "D" i (snowmodel_table n obs) = Some (strftime_d d).
Proof.
  intros Hd.
  change (int_at "Y" i (snowmodel_table n obs))
    with ((year <$> obs_date obs) !! i).
  change (str_at "M" i (snowmodel_table n obs))
    with ((strftime_b <$> obs_date obs) !! i).
  change (str_at "D" i (snowmodel_table n obs))
    with ((strftime_d <$> obs_date obs) !! i).
  by rewrite !list_lookup_fmap, Hd.
Qed.

(** C8.  The dates are read from [measurementDate] for a snow course and
    from [datetime] otherwise; each row gets the year as [Y], the
    three-letter month as [M] and the day of the month on two digits as
    [D].  2024-01-15 gives 2024, Jan and 15; 2023-10-05 gives day 05. *)
Theorem C8_date_fields df is_snowcourse obs s rest w df1 dates :
  wf_frame df →
  observations_of is_snowcourse df = Some obs →
  obs_site obs = s :: rest →
  reset_index df = Ok df1 →
  getitem (if is_snowcourse then "measurementDate" else "datetime") df1
    = Ok (ColDate dates) →
  ∃ tbl,
    organize df is_snowcourse w
      = (Ok (), formatted w (station_file is_snowcourse s) tbl) ∧
    (∀ i d,
        dates !! i = Some d →
        int_at "Y" i tbl = Some (year d) ∧
        str_at "M" i tbl = Some (strftime_b d) ∧
        str_at "D" i tbl = Some (strftime_d d)) ∧
    (∀ d, String.length (strftime_b d) = 3%nat) ∧
    (∀ d, (day d < 100)%nat → String.length (strftime_d d) = 2%nat) ∧
    (year (mkdate 2024 Jan 15), strftime_b (mkdate 2024 Jan 15),
     strftime_d (mkdate 2024 Jan 15)) = (2024, "Jan", "15") ∧
    strftime_d (mkdate 2023 Oct 5) = "05".
Proof.
  intros Hwf Hobs Hsite Hreset Hdate.
  exists (snowmodel_table (nrows df) obs).
  split; [by eapply organize_observations|].
  split; [|by (repeat split; auto using strftime_b_length, strftime_d_length)].
  destruct (observations_of_inv _ _ _ Hobs)
    as (df1' & Hreset' & _ & Edate & _).
  assert (df1' = df1) as -> by congruence.
  unfold getitem, date_column in *. rewrite Edate in Hdate.
  injection Hdate as <-. intros i d. apply table_dates.
Qed.

Lemma iloc0_empty c : col_length c = 0%nat → iloc0 c = Raise IndexError.
Proof. by destruct c as [[|]|[|]|[|]|[|]|[|]]. Qed.

Lemma organize_empty df is_snowcourse w :
  wf_frame df → nrows df = 0%nat →
  organize df is_snowcourse w =
    match reset_index df with
    | Raise e => (Raise e, w)
    | Ok df1 =>
        match lookup_col "site" (columns df1) with
        | None => (Raise (KeyError "site"), w)
        | Some _ => (Raise IndexError, w)
        end
    end.
Proof.
  intros Hwf Hn. unfold organize_for_snowmodel. run_step.
  destruct (reset_index df) as [df1|e] eqn:Hreset; run_step; [|done].
  destruct (lookup_col "site" (columns df1)) as [c|] eqn:Esite; run_step;
    [|done].
  pose proof (reset_index_lengths _ _ Hwf Hreset) as Hlen.
  pose proof (lookup_col_length _ _ _ Hlen Esite) as Hc.
  rewrite (reset_index_nrows _ _ Hreset), Hn in Hc.
  destruct c as [[|]|[|]|[|]|[|]|[|]]; done.
Qed.

(** C10.  The station identifier is read from the first row, so a table
    without rows makes the formatter fail before it prints or writes
    anything: with an [IndexError] when the table has its [site] column.
    A run that succeeds was given at least one row. *)
Theorem C10_needs_a_row df is_snowcourse w :
  wf_frame df →
  (nrows df = 0%nat → ∃ e, organize df is_snowcourse w = (Raise e, w)) ∧
  (∀ df1, nrows df = 0%nat → reset_index df = Ok df1 →
          "site" ∈ labels (columns df1) →
          organize df is_snowcourse w = (Raise IndexError, w)) ∧
  (∀ w', organize df is_snowcourse w = (Ok (), w') → (0 < nrows df)%nat).
Proof.
  intros Hwf.
  assert (H0 : nrows df = 0%nat →
               ∃ e, organize df is_snowcourse w = (Raise e, w)).
  { intros Hn. rewrite organize_empty by done.
    destruct (reset_index df) as [df1|e]; [|by eexists].
    destruct (lookup_col "site" (columns df1)); by eexists. }
  split; [done|]. split.
  - intros df1 Hn Hreset Hsite. rewrite organize_empty, Hreset by done.
    destruct (lookup_col "site" (columns df1)) eqn:E; [done|].
    by apply lookup_col_None in E.
  - intros w' Hrun. destruct (nrows df) eqn:Hn; [|lia].
    destruct (H0 eq_refl) as [e He]. congruence.
Qed.

End Formatter.

(** ** The metadata formatter *)

Lemma lookup_col_cons k k' c cols :
  lookup_col k ((k', c) :: cols)
  = if decide (k = k') then Some c else lookup_col k cols.
Proof. reflexivity. Qed.

Lemma lookup_filter_ne k k' cols :
  k ≠ k' →
  lookup_col k (filter (λ kc : string * column, kc.1 ≠ k') cols)
  = lookup_col k cols.
Proof.
  intros Hne. induction cols as [|[k0 c0] cols IH]; [done|].
  rewrite filter_cons.
  destruct (decide ((k0, c0).1 ≠ k')) as [E|E]; simpl in E.
  - by rewrite !lookup_col_cons, IH.
  - apply dec_stable in E. subst k0.
    by rewrite lookup_col_cons, decide_False.
Qed.

Lemma drop_present k c df :
  lookup_col k (columns df) = Some c →
  drop k df = Ok (mkframe (nrows df) (index df)
                    (filter (λ kc : string * column, kc.1 ≠ k) (columns df))).
Proof.
  intros H. unfold drop. rewrite decide_True; [done|].
  destruct (decide (k ∈ labels (columns df))) as [|E]; [done|].
  apply lookup_col_None in E. congruence.
Qed.

Lemma lookup_rename_id_other k df :
  k ≠ "id" → k ≠ "station ID" →
  lookup_col k (columns (rename [("id", "station ID")] df))
  = lookup_col k (columns df).
Proof.
  intros H1 H2. apply lookup_rename. intros k' _.
  rewrite rename_label_one. case_decide; naive_solver.
Qed.

Lemma lookup_rename_id df :
  lookup_col "station ID" (columns df) = None →
  lookup_col "station ID" (columns (rename [("id", "station ID")] df))
  = lookup_col "id" (columns df).
Proof.
  intros Hk. apply lookup_rename. intros k' Hk'.
  rewrite rename_label_one. apply lookup_col_None in Hk.
  case_decide; naive_solver.
Qed.


Lemma collect_point_z_present g :
  Forall (λ p, is_Some (pz p)) g →
  ∃ zs, collect (point_z <$> g) = Ok zs ∧ length zs = length g.
Proof.
  induction g as [|p g IH]; intros H.
  - by exists [].
  - apply Forall_cons in H as [[z Hz] Hg].
    destruct (IH Hg) as (zs & Hzs & Hlen).
    exists (z :: zs). rewrite fmap_cons. cbn [collect]. unfold point_z at 1.
    rewrite Hz, Hzs. simpl. by rewrite Hlen.
Qed.

Ltac meta_step :=
  cbv beta iota zeta
    delta [bind pure ret getitem geometry rbind broadcast_str select
           select_cols to_csv print].

Ltac meta_lookup :=
  repeat first
    [ rewrite lookup_setitem_eq
    | rewrite lookup_setitem_ne by done
    | rewrite lookup_col_cons
    | rewrite lookup_filter_ne by done
    | rewrite lookup_rename_id_other by done
    | rewrite lookup_rename_id by (meta_lookup; assumption) ].

Section Metadata.

Variable region : Type.
Variable read_file : string → result region.
Variable station : Type.
Variable points_from_geometry :
  region → list CdecStationVariables → bool → result (list station).
Variable to_dataframe : list station → frame.
Variable repr_points : list station → string.

Local Abbreviation metadata_with to_df :=
  (make_snow_course_metadata region read_file station points_from_geometry
     to_df repr_points).

(** Once the stations are located the formatter is [metadata_table] of
    their frame, followed by the write and the print. *)
Lemma metadata_after_locate to_df w shp pnts :
  read_file "sierras_outline.shp" = Ok shp →
  points_from_geometry shp [SWE] true = Ok pnts →
  lookup_col "station ID" (columns (to_df pnts)) = None →
  metadata_with to_df w =
    match metadata_table (to_df pnts) with
    | Ok tbl => (Ok (), metadata_written w tbl (repr_points pnts))
    | Raise e => (Raise e, w)
    end.
Proof.
  intros Hread Hpnts Hsid.
  unfold make_snow_course_metadata, metadata_table. meta_step.
  rewrite Hread. meta_step. rewrite Hpnts. meta_step.
  destruct (lookup_col "geometry" (columns (to_df pnts)))
    as [[| | | |g]|] eqn:Eg; try done.
  meta_step. do 2 (meta_lookup; rewrite Eg; meta_step).
  destruct (geometry_z g) as [elev|e] eqn:Ez; [|done]. meta_step.
  rewrite (drop_present "geometry" (ColGeom g)) by (meta_lookup; exact Eg).
  meta_step. repeat (progress (meta_lookup; cbn [columns nrows index])).
  by destruct (lookup_col "id" (columns (to_df pnts))).
Qed.

Lemma metadata_table_permutation df df' :
  wf_frame df →
  nrows df' = nrows df → index df' = index df →
  columns df' ≡ₚ columns df →
  metadata_table df' = metadata_table df.
Proof.
  intros [Hnd _] Hn Hi Hp. apply NoDup_app in Hnd as (_ & _ & Hnd).
  unfold metadata_table. rewrite Hn, Hi.
  by rewrite !(lookup_col_Permutation _ (columns df) (columns df')).
Qed.

Lemma csv_fields_shape format_float repr_float repr_date repr_point tbl :
  labels (columns tbl) = ["statecode"; "station ID"; "lat"; "lon"; "elev"] →
  ∃ rows,
    csv_fields format_float repr_float repr_date repr_point
      (mkcsv tbl None false)
      = ["statecode"; "station ID"; "lat"; "lon"; "elev"] :: rows ∧
    length rows = nrows tbl ∧
    Forall (λ r, length r = 5%nat) rows.
Proof.
  intros Hl. eexists. unfold csv_fields, csv_columns; simpl.
  rewrite Hl. split; [reflexivity|]. split.
  - by rewrite length_fmap, length_seq.
  - apply Forall_fmap, Forall_forall. intros i _. simpl.
    rewrite length_fmap. unfold labels in Hl.
    by rewrite <- (length_fmap fst), Hl.
Qed.

(** C6.  Whatever the order in which the locator's frame lists its
    columns, the metadata formatter writes the same table: the five
    columns statecode, station ID, lat, lon, elev in that order.  The file
    is written without the index; its text starts with the header row and
    every row has five fields. *)
Theorem C6_metadata_five_columns to_df' w shp pnts g ids :
  read_file "sierras_outline.shp" = Ok shp →
  points_from_geometry shp [SWE] true = Ok pnts →
  wf_frame (to_dataframe pnts) →
  lookup_col "geometry" (columns (to_dataframe pnts)) = Some (ColGeom g) →
  Forall (λ p, is_Some (pz p)) g →
  lookup_col "id" (columns (to_dataframe pnts)) = Some ids →
  lookup_col "station ID" (columns (to_dataframe pnts)) = None →
  nrows (to_df' pnts) = nrows (to_dataframe pnts) →
  index (to_df' pnts) = index (to_dataframe pnts) →
  columns (to_df' pnts) ≡ₚ columns (to_dataframe pnts) →
  ∃ tbl,
    metadata_with to_dataframe w = (Ok (), metadata_written w tbl (repr_points pnts)) ∧
    metadata_with to_df' w = (Ok (), metadata_written w tbl (repr_points pnts)) ∧
    labels (columns tbl) = ["statecode"; "station ID"; "lat"; "lon"; "elev"] ∧
    files (metadata_written w tbl (repr_points pnts)) !! "Sierras_COURSE_station_info.csv"
      = Some (mkcsv tbl None false) ∧
    ∀ format_float repr_float repr_date repr_point,
      head (render_csv format_float repr_float repr_date repr_point
              (mkcsv tbl None false))
        = Some "statecode,station ID,lat,lon,elev" ∧
      ∃ rows,
        csv_fields format_float repr_float repr_date repr_point
          (mkcsv tbl None false)
          = ["statecode"; "station ID"; "lat"; "lon"; "elev"] :: rows ∧
        length rows = nrows (to_dataframe pnts) ∧
        Forall (λ r, length r = 5%nat) rows.
Proof.
  intros Hread Hpnts Hwf Eg Hz Eid Hsid Hn Hi Hp.
  destruct (collect_point_z_present g Hz) as (zs & Hzs & _).
  pose proof (metadata_table_permutation _ _ Hwf Hn Hi Hp) as Hperm.
  assert (Hsid' : lookup_col "station ID" (columns (to_df' pnts)) = None).
  { apply lookup_col_None. unfold labels. rewrite Hp.
    by apply lookup_col_None. }
  assert (Htbl : ∃ tbl, metadata_table (to_dataframe pnts) = Ok tbl ∧
            nrows tbl = nrows (to_dataframe pnts) ∧
            labels (columns tbl)
              = ["statecode"; "station ID"; "lat"; "lon"; "elev"]).
  { unfold metadata_table, geometry_z. rewrite Eg, Hzs, Eid. by eexists. }
  destruct Htbl as (tbl & Htbl & Hrows & Hlabels). exists tbl.
  split; [by rewrite (metadata_after_locate _ _ _ _ Hread Hpnts Hsid), Htbl|].
  split.
  { by rewrite (metadata_after_locate _ _ _ _ Hread Hpnts Hsid'), Hperm, Htbl. }
  split; [done|]. split; [apply lookup_insert_eq|].
  intros format_float repr_float repr_date repr_point.
  destruct (csv_fields_shape format_float repr_float repr_date repr_point
              tbl Hlabels) as (rows & Hf & Hlen & Hall).
  split.
  - unfold render_csv. by rewrite Hf.
  - exists rows. by rewrite <- Hrows.
Qed.


End Metadata.

(** ** The station loops *)

(** The slice [l[0:-1]] is the list without its last element. *)
Lemma slice_to_minus_one {A} (l : list A) :
  slice_to l (-1) = take (length l - 1) l.
Proof.
  unfold slice_to. simpl. f_equal. lia.
Qed.

Lemma slice_to_minus_one_snoc {A} (l : list A) (x : A) :
  slice_to (l ++ [x]) (-1) = l.
Proof.
  rewrite slice_to_minus_one, length_app. simpl.
  replace (length l + 1 - 1)%nat with (length l) by lia.
  by rewrite take_app_length.
Qed.

Section Stations.

Variable repr_float : float → string.
Variable repr_date : datetime → string.
Variable repr_point : point → string.
Variable region : Type.
Variable read_file : string → result region.
Variable station : Type.
Variable station_id : station → string.
Variable points_from_geometry :
  region → list CdecStationVariables → bool → result (list station).
Variable pnt_get_snow_course_data :
  station → datetime → datetime → list CdecStationVariables →
  result (option frame).
Variable pnt_get_daily_data :
  station → datetime → datetime → list CdecStationVariables →
  result (option frame).

Local Abbreviation snow_course_turn :=
  (pull_snow_course repr_float repr_date repr_point station station_id
     pnt_get_snow_course_data).
Local Abbreviation daily_turn :=
  (pull_daily repr_float repr_date repr_point station station_id
     pnt_get_daily_data).

(** C4.  When the fetch of a station answers [None], the turn of the loop
    for that station prints its progress line and nothing else: no file is
    created or changed, no [Outputting data to] line appears, no exception
    is raised, and the loop goes on with the stations that follow.  So it
    is in the snow-course pass and in the sensor pass. *)
Theorem C4_absent_station_is_skipped start end_ variables pnt rest w :
  pnt_get_snow_course_data pnt start end_ variables = Ok None →
  pnt_get_daily_data pnt start end_ variables = Ok None →
  let w' := mkworld (files w) (stdout w ++ ["Pulling " +:+ station_id pnt]) in
  snow_course_turn start end_ variables pnt w = (Ok (), w') ∧
  for_each (pnt :: rest) (snow_course_turn start end_ variables) w
    = for_each rest (snow_course_turn start end_ variables) w' ∧
  daily_turn start end_ variables pnt w = (Ok (), w') ∧
  for_each (pnt :: rest) (daily_turn start end_ variables) w
    = for_each rest (daily_turn start end_ variables) w'.
Proof.
  intros Hcourse Hdaily w'.
  assert (H1 : snow_course_turn start end_ variables pnt w = (Ok (), w')).
  { unfold pull_snow_course, bind, pure, print, ret. by rewrite Hcourse. }
  assert (H2 : daily_turn start end_ variables pnt w = (Ok (), w')).
  { unfold pull_daily, bind, pure, print, ret. by rewrite Hdaily. }
  repeat split; try done.
  - cbn [for_each]. unfold bind at 1. by rewrite H1.
  - cbn [for_each]. unfold bind at 1. by rewrite H2.
Qed.

End Stations.

(** ** The properties on the sample data *)

Lemma formatted_inj w path tbl tbl' :
  formatted w path tbl = formatted w path tbl' → tbl = tbl'.
Proof.
  intros H. apply (f_equal (λ w', files w' !! path)) in H.
  unfold formatted in H; simpl in H. rewrite !lookup_insert_eq in H.
  by injection H.
Qed.

Lemma run_table (r : result () * world) w path tbl tbl' :
  r = (Ok (), formatted w path tbl) →
  r = (Ok (), formatted w path tbl') →
  tbl = tbl'.
Proof.
  intros H H'. rewrite H in H'. apply (f_equal snd) in H'.
  by apply formatted_inj in H'.
Qed.

Lemma sample_sensor_wf : wf_frame sample_sensor.
Proof. compute_done. Qed.

Lemma sample_course_wf site : wf_frame (sample_course site).
Proof. compute_done. Qed.




Lemma C3_sample_rows :
  wf_frame sample_sensor ∧
  observations_of false sample_sensor = Some sample_sensor_obs ∧
  (obs_SWE sample_sensor_obs !! 1%nat = Some 0%float ∧
   obs_SNOWDEPTH sample_sensor_obs !! 1%nat = Some 3.937007874015748%float) ∧
  (obs_SWE sample_sensor_obs !! 2%nat = Some 0.3937007874015748%float ∧
   obs_SNOWDEPTH sample_sensor_obs !! 2%nat = Some 0%float) ∧
  ∃ tbl,
    organize_for_snowmodel sample_text sample_text sample_text
      sample_sensor false empty_world
      = (Ok (), formatted empty_world "CA_ABC_SMSITE.csv" tbl) ∧
    (float_at "swe" 1 tbl = Some 0%float ∧
     float_at "depth" 1 tbl = Some 10%float ∧
     float_at "density" 1 tbl = Some 0%float) ∧
    (float_at "swe" 2 tbl = Some 10%float ∧
     float_at "depth" 2 tbl = Some 0%float ∧
     float_at "density" 2 tbl = Some 0%float).
Proof.
  split; [exact sample_sensor_wf|]. split; [reflexivity|].
  do 2 (split; [by split|]).
  destruct (C3_density_default_zero sample_text sample_text sample_text
              sample_sensor false sample_sensor_obs "ABC" ["ABC"; "ABC"; "ABC"]
              empty_world sample_sensor_wf eq_refl eq_refl)
    as (tbl & Hrun & Hrows & _).
  exists tbl. split; [exact Hrun|]. split.
  - exact (Hrows 1%nat 0%float 3.937007874015748%float
             eq_refl eq_refl (or_introl eq_refl)).
  - exact (Hrows 2%nat 0.3937007874015748%float 0%float
             eq_refl eq_refl (or_intror eq_refl)).
Defined.

Lemma C5_sample_inch :
  wf_frame sample_sensor ∧
  observations_of false sample_sensor = Some sample_sensor_obs ∧
  ∃ tbl,
    organize_for_snowmodel sample_text sample_text sample_text
      sample_sensor false empty_world
      = (Ok (), formatted empty_world "CA_ABC_SMSITE.csv" tbl) ∧
    float_at "swe" 3 tbl = Some 25.4%float ∧
    float_at "depth" 3 tbl = Some 2.54%float ∧
    float_at "density" 3 tbl = Some (density_of 25.4 2.54).
Proof.
  split; [exact sample_sensor_wf|]. split; [reflexivity|].
  destruct (C5_units_after_rename_before_density
              sample_text sample_text sample_text
              sample_sensor false sample_sensor_obs "ABC" ["ABC"; "ABC"; "ABC"]
              empty_world sample_sensor_wf eq_refl eq_refl)
    as (df1 & tbl & _ & _ & _ & _ & _ & Hrun & Hrows & _).
  exists tbl. split; [exact Hrun|].
  exact (Hrows 3%nat 1.0%float 1.0%float eq_refl eq_refl).
Defined.

Lemma C7_sample_names :
  (wf_frame sample_sensor ∧
   observations_of false sample_sensor = Some sample_sensor_obs ∧
   ∃ tbl w',
     organize_for_snowmodel sample_text sample_text sample_text
       sample_sensor false empty_world = (Ok (), w') ∧
     files w' !! "CA_ABC_SMSITE.csv" = Some (mkcsv tbl (Some "%.1f") false)) ∧
  (wf_frame (sample_course "ABC") ∧
   observations_of true (sample_course "ABC")
     = Some (sample_course_obs "ABC") ∧
   ∃ tbl w',
     organize_for_snowmodel sample_text sample_text sample_text
       (sample_course "ABC") true empty_world = (Ok (), w') ∧
     files w' !! "CA_ABC_SNOCOURSE.csv"
       = Some (mkcsv tbl (Some "%.1f") false)).
Proof.
  split.
  - split; [exact sample_sensor_wf|]. split; [reflexivity|].
    destruct (C7_output_file_name sample_text sample_text sample_text
                sample_sensor false sample_sensor_obs "ABC"
                ["ABC"; "ABC"; "ABC"] empty_world
                sample_sensor_wf eq_refl eq_refl)
      as (tbl & w' & Hrun & Hfile & _).
    exists tbl, w'. by split.
  - split; [exact (sample_course_wf "ABC")|]. split; [reflexivity|].
    destruct (C7_output_file_name sample_text sample_text sample_text
                (sample_course "ABC") true (sample_course_obs "ABC") "ABC"
                ["ABC"] empty_world
                (sample_course_wf "ABC") eq_refl eq_refl)
      as (tbl & w' & Hrun & Hfile & _).
    exists tbl, w'. by split.
Defined.

Lemma C8_sample_dates :
  (wf_frame (sample_course "ABC") ∧
   observations_of true (sample_course "ABC")
     = Some (sample_course_obs "ABC") ∧
   ∃ tbl,
     organize_for_snowmodel sample_text sample_text sample_text
       (sample_course "ABC") true empty_world
       = (Ok (), formatted empty_world "CA_ABC_SNOCOURSE.csv" tbl) ∧
     int_at "Y" 0 tbl = Some 2024 ∧
     str_at "M" 0 tbl = Some "Jan" ∧
     str_at "D" 0 tbl = Some "28") ∧
  (wf_frame sample_sensor ∧
   observations_of false sample_sensor = Some sample_sensor_obs ∧
   ∃ tbl,
     organize_for_snowmodel sample_text sample_text sample_text
       sample_sensor false empty_world
       = (Ok (), formatted empty_world "CA_ABC_SMSITE.csv" tbl) ∧
     int_at "Y" 1 tbl = Some 2023 ∧
     str_at "M" 1 tbl = Some "Oct" ∧
     str_at "D" 1 tbl = Some "05").
Proof.
  split.
  - split; [exact (sample_course_wf "ABC")|]. split; [reflexivity|].
    destruct (C8_date_fields sample_text sample_text sample_text
                (sample_course "ABC") true (sample_course_obs "ABC") "ABC"
                ["ABC"] empty_world _ _
                (sample_course_wf "ABC") eq_refl eq_refl eq_refl eq_refl)
      as (tbl & Hrun & Hrows & _).
    exists tbl. split; [exact Hrun|].
    exact (Hrows 0%nat (mkdate 2024 Jan 28) eq_refl).
  - split; [exact sample_sensor_wf|]. split; [reflexivity|].
    destruct (C8_date_fields sample_text sample_text sample_text
                sample_sensor false sample_sensor_obs "ABC"
                ["ABC"; "ABC"; "ABC"] empty_world _ _
                sample_sensor_wf eq_refl eq_refl eq_refl eq_refl)
      as (tbl & Hrun & Hrows & _).
    exists tbl. split; [exact Hrun|].
    exact (Hrows 1%nat (mkdate 2023 Oct 5) eq_refl).
Defined.

Lemma sample_empty_wf : wf_frame sample_empty.
Proof. compute_done. Qed.

Lemma C10_sample_empty :
  wf_frame sample_empty ∧ nrows sample_empty = 0%nat ∧
  organize_for_snowmodel sample_text sample_text sample_text
    sample_empty false empty_world = (Raise IndexError, empty_world) ∧
  organize_for_snowmodel sample_text sample_text sample_text
    sample_empty true empty_world = (Raise IndexError, empty_world).
Proof.
  split; [exact sample_empty_wf|]. split; [reflexivity|]. split.
  - destruct (C10_needs_a_row sample_text sample_text sample_text
                sample_empty false empty_world sample_empty_wf)
      as (_ & Hindex & _).
    apply (Hindex _ eq_refl eq_refl). compute_done.
  - destruct (C10_needs_a_row sample_text sample_text sample_text
                sample_empty true empty_world sample_empty_wf)
      as (_ & Hindex & _).
    apply (Hindex _ eq_refl eq_refl). compute_done.
Defined.

Lemma sample_stations_wf z pnts : wf_frame (sample_stations z pnts).
Proof.
  split; [compute_done|]. simpl.
  repeat (apply Forall_cons; split;
          [simpl; by rewrite ?length_replicate, ?length_fmap|]).
  apply Forall_nil_2.
Qed.

Lemma C6_sample_orders :
  wf_frame (sample_stations (Some 2000%float) ["AAA"; "BBB"; "CCC"]) ∧
  columns (sample_stations_reversed (Some 2000%float) ["AAA"; "BBB"; "CCC"])
    ≡ₚ columns (sample_stations (Some 2000%float) ["AAA"; "BBB"; "CCC"]) ∧
  labels (columns (sample_stations_reversed (Some 2000%float)
                     ["AAA"; "BBB"; "CCC"]))
    = ["geometry"; "datasource"; "id"; "name"] ∧
  ∃ tbl,
    make_snow_course_metadata unit sample_read_file string sample_points
      (sample_stations (Some 2000%float)) sample_text empty_world
      = (Ok (), metadata_written empty_world tbl "?") ∧
    make_snow_course_metadata unit sample_read_file string sample_points
      (sample_stations_reversed (Some 2000%float)) sample_text empty_world
      = (Ok (), metadata_written empty_world tbl "?") ∧
    labels (columns tbl) = ["statecode"; "station ID"; "lat"; "lon"; "elev"].
Proof.
  split; [apply sample_stations_wf|].
  split; [apply reverse_Permutation|].
  split; [reflexivity|].
  destruct (C6_metadata_five_columns unit sample_read_file string
              sample_points (sample_stations (Some 2000%float)) sample_text
              (sample_stations_reversed (Some 2000%float))
              empty_world () ["AAA"; "BBB"; "CCC"] _ _
              eq_refl eq_refl (sample_stations_wf _ _) eq_refl
              ltac:(compute_done) eq_refl eq_refl eq_refl eq_refl
              (reverse_Permutation _))
    as (tbl & Hrun & Hrun' & Hlabels & _).
  exists tbl. by repeat split.
Defined.


Lemma C4_sample_absent :
  sample_absent "BBB" (mkdate 2023 Oct 1) (mkdate 2024 Sep 30)
    [SWE; SNOWDEPTH] = Ok None ∧
  pull_snow_course sample_text sample_text sample_text string id
    sample_absent (mkdate 2023 Oct 1) (mkdate 2024 Sep 30)
    [SWE; SNOWDEPTH] "BBB" empty_world
    = (Ok (), mkworld ∅ ["Pulling BBB"]) ∧
  pull_daily sample_text sample_text sample_text string id
    sample_absent (mkdate 2023 Oct 1) (mkdate 2024 Sep 30)
    [SWE; SNOWDEPTH] "BBB" empty_world
    = (Ok (), mkworld ∅ ["Pulling BBB"]).
Proof.
  split; [reflexivity|].
  destruct (C4_absent_station_is_skipped sample_text sample_text sample_text
              string id sample_absent sample_absent
              (mkdate 2023 Oct 1) (mkdate 2024 Sep 30) [SWE; SNOWDEPTH]
              "BBB" ["CCC"] empty_world eq_refl eq_refl)
    as (Hcourse & _ & Hdaily & _).
  split; [exact Hcourse | exact Hdaily].
Defined.

(** C2.  With no limit given the loops slice the stations with
    [points[0:-1]], which leaves the last station out: of the three sample
    stations only AAA and BBB are pulled and written, in the snow-course
    pass and in the sensor pass, while the limit 3 reaches CCC as well. *)
Theorem C2_no_limit_leaves_last_station_out :
  (∀ (A : Type) (l : list A) (x : A), slice_to (l ++ [x]) (-1) = l) ∧
  (let run limit :=
     snd (get_snow_course_data sample_text sample_text sample_text
            unit sample_read_file string id sample_points sample_fetch
            (mkdate 2023 Oct 1) (mkdate 2024 Sep 30) limit empty_world) in
   stdout (run None)
     = ["Finding all points in Sierras..."; "Pulling AAA";
        "Outputting data to CA_AAA_SNOCOURSE.csv"; "Pulling BBB";
        "Outputting data to CA_BBB_SNOCOURSE.csv"] ∧
   files (run None) !! "CA_CCC_SNOCOURSE.csv" = None ∧
   is_Some (files (run (Some 3)) !! "CA_CCC_SNOCOURSE.csv")) ∧
  (let run limit :=
     snd (get_cdec_snotel_data sample_text sample_text sample_text
            unit sample_read_file string id sample_points
            (λ _ _ _ _, Ok (Some sample_sensor))
            (mkdate 2023 Oct 1) (mkdate 2024 Sep 30) limit empty_world) in
   stdout (run None)
     = ["Finding all points in Sierras..."; "Pulling AAA";
        "Outputting data to CA_ABC_SMSITE.csv"; "Pulling BBB";
        "Outputting data to CA_ABC_SMSITE.csv"] ∧
   stdout (run (Some 3))
     = ["Finding all points in Sierras..."; "Pulling AAA";
        "Outputting data to CA_ABC_SMSITE.csv"; "Pulling BBB";
        "Outputting data to CA_ABC_SMSITE.csv"; "Pulling CCC";
        "Outputting data to CA_ABC_SMSITE.csv"]).
Proof.
  split; [intros; apply slice_to_minus_one_snoc|].
  split.
  - intros run. split; [by vm_compute|]. split; [by vm_compute|].
    vm_compute. by eexists.
  - intros run. split; by vm_compute.
Qed.
